(** * mypy/main.py: the Bazel driver around mypy's entry point

    A shallow embedding of [mypy/main.py].  The script reads a manifest
    of third-party dependency directories, replaces the two discovery
    functions of Python's [site] module for the time of one call of
    mypy's [main], captures what mypy prints, and puts the two
    functions back in a [finally] block.

    Python values are modelled as follows.
    - [str] is [string]; a [list] of [str] is [list string].
    - A function object stored in [site.getsitepackages] or
      [site.getusersitepackages] is a value of [getsitepackages_fn] or
      [getusersitepackages_fn]: either a function of the host
      interpreter, described by what it returns in this process, or one
      of the two closures that [monkey_patch_sitepackages] builds.
    - The interpreter state the script touches is the record [world].
      The two module globals [_original_getsitepackages] and
      [_original_getusersitepackages] are fields of it, next to the two
      attributes of [site], the heap of [StringIO] objects, and the
      chronological [trace] of calls and of writes to the real streams.
    - Statements are computations in the state-and-exception monad [M];
      [try]/[except SystemExit]/[finally] are combinators on it. *)

From Stdlib Require Import ZArith Lia Ascii String List Bool.
From stdpp Require Import base list strings.

Local Open Scope Z_scope.

(** ** Python objects *)

(** The object carried by a [SystemExit]: [sys.exit()] carries [None],
    [sys.exit(2)] an [int], [sys.exit("msg")] a [str]. *)
Inductive exit_code : Type :=
  | CodeNone
  | CodeInt (n : Z)
  | CodeStr (s : string).

(** The exceptions the script can see. *)
Inductive exn : Type :=
  | SystemExit (code : exit_code)
  | AssertionError
  | OtherError (what : string).

(** [site.getsitepackages]: the host's function, or the closure
    [__bazel_override_getsitepackages__] over its free variable
    [site_packages]. *)
Inductive getsitepackages_fn : Type :=
  | host_getsitepackages (ret : list string)
  | __bazel_override_getsitepackages__ (site_packages : list string).

(** [site.getusersitepackages]: the host's function, or the closure
    [__bazel_override_getusersitepackages__]. *)
Inductive getusersitepackages_fn : Type :=
  | host_getusersitepackages (ret : string)
  | __bazel_override_getusersitepackages__.

(** The real streams of the process. *)
Inductive real_stream : Type := sys_stdout | sys_stderr.

(** What an observer of the process sees, in the order it happens. *)
Inductive event : Type :=
  | CallMonkeyPatch                       (* lines 63-64 are reached *)
  | CallRestore                           (* restore_original_sitepackages() *)
  | CallMain (args : list string)         (* mypy.main.main(...) *)
  | Write (f : real_stream) (text : string).

(** A [StringIO] object is a position in the heap of buffers. *)
Definition handle : Type := nat.

Record world : Type := mkWorld {
  site_getsitepackages : getsitepackages_fn;
  site_getusersitepackages : getusersitepackages_fn;
  _original_getsitepackages : getsitepackages_fn;
  _original_getusersitepackages : getusersitepackages_fn;
  heap : list string;
  trace : list event
}.

(** ** The file system and the operating-system interface *)

(** [Path(p).read_text()] gives the text of the file or raises; the
    string of [inr] is [str(e)] of the exception raised. *)
Record filesystem : Type := mkFs {
  read_text : string -> string + string;
  os_path_exists : string -> bool
}.

Definition sep : ascii := "/"%char.
Definition newline : ascii := "010"%char.

Definition startswith_sep (s : string) : bool :=
  match s with
  | String c _ => Ascii.eqb c sep
  | EmptyString => false
  end.

Fixpoint endswith_sep (s : string) : bool :=
  match s with
  | EmptyString => false
  | String c EmptyString => Ascii.eqb c sep
  | String _ rest => endswith_sep rest
  end.

(** [os.path.join(a, b)] of [posixpath], for two arguments. *)
Definition os_path_join (a b : string) : string :=
  if startswith_sep b then b
  else if (match a with EmptyString => true | _ => false end) || endswith_sep a
       then a +:+ b
       else a +:+ String sep b.

(** [s.split("\n")]. *)
Fixpoint split_newline (s : string) : list string :=
  match s with
  | EmptyString => [EmptyString]
  | String c rest =>
      if Ascii.eqb c newline then EmptyString :: split_newline rest
      else match split_newline rest with
           | hd :: tl => String c hd :: tl
           | [] => [String c EmptyString]
           end
  end.

(** ** The monad of statements *)

Definition M (A : Type) : Type := world -> (A + exn) * world.

Definition ret {A} (a : A) : M A := fun w => (inl a, w).

Definition raise {A} (e : exn) : M A := fun w => (inr e, w).

Definition bind {A B} (m : M A) (k : A -> M B) : M B :=
  fun w =>
    match m w with
    | (inl a, w') => k a w'
    | (inr e, w') => (inr e, w')
    end.

Declare Scope py_scope.
Delimit Scope py_scope with py.
Notation "x <- c1 ;; c2" := (bind c1 (fun x => c2))
  (at level 100, c1 at next level, right associativity) : py_scope.
Notation "c1 ;; c2" := (bind c1 (fun _ => c2))
  (at level 100, right associativity) : py_scope.
Local Open Scope py_scope.

(** [try: body  except SystemExit as e: handler e]. *)
Definition try_except_SystemExit {A} (body : M A) (handler : exit_code -> M A) : M A :=
  fun w =>
    match body w with
    | (inr (SystemExit code), w') => handler code w'
    | r => r
    end.

(** [try: body  finally: fin].  The [finally] block runs on every way
    out of [body]; an exception of its own replaces the pending one. *)
Definition try_finally {A} (body : M A) (fin : M unit) : M A :=
  fun w =>
    match body w with
    | (r, w') =>
        match fin w' with
        | (inl _, w'') => (r, w'')
        | (inr e, w'') => (inr e, w'')
        end
    end.

Definition get {A} (f : world -> A) : M A := fun w => (inl (f w), w).

Definition modify (f : world -> world) : M unit := fun w => (inl tt, f w).

Definition emit (e : event) : M unit :=
  modify (fun w =>
    mkWorld (site_getsitepackages w) (site_getusersitepackages w)
            (_original_getsitepackages w) (_original_getusersitepackages w)
            (heap w) (trace w ++ [e])).

(** [print(text, file=f)]: the text and the line end. *)
Definition print (text : string) (f : real_stream) : M unit :=
  emit (Write f (text +:+ String newline EmptyString)).

(** [sys.exit(code)]. *)
Definition sys_exit {A} (code : exit_code) : M A := raise (SystemExit code).

(** [assert b], in the interpreter's default mode, where assertions
    are checked. *)
Definition assert (b : bool) : M unit :=
  if b then ret tt else raise AssertionError.

(** [StringIO()]: a new empty buffer. *)
Definition StringIO : M handle :=
  fun w =>
    (inl (length (heap w)),
     mkWorld (site_getsitepackages w) (site_getusersitepackages w)
             (_original_getsitepackages w) (_original_getusersitepackages w)
             (heap w ++ [EmptyString]) (trace w)).

(** [h.getvalue()]. *)
Definition getvalue (h : handle) : M string :=
  get (fun w => default EmptyString (heap w !! h)).

(** [h.write(text)] on the heap. *)
Definition heap_write (h : handle) (text : string) (hp : list string) : list string :=
  match hp !! h with
  | Some old => <[h := old +:+ text]> hp
  | None => hp
  end.

(** ** Calling the discovery functions *)

(** [f()] for a primary discovery function.  The closure of line 57
    reads the module global [_original_getsitepackages] when it is
    called; were that global itself the closure, the call would never
    bottom out and Python raises [RecursionError]: [None]. *)
Definition call_getsitepackages (w : world) (f : getsitepackages_fn) : option (list string) :=
  match f with
  | host_getsitepackages l => Some l
  | __bazel_override_getsitepackages__ site_packages =>
      match _original_getsitepackages w with
      | host_getsitepackages l => Some (site_packages ++ l)
      | __bazel_override_getsitepackages__ _ => None
      end
  end.

(** [f()] for a secondary discovery function; line 61 returns [''].  *)
Definition call_getusersitepackages (f : getusersitepackages_fn) : string :=
  match f with
  | host_getusersitepackages s => s
  | __bazel_override_getusersitepackages__ => EmptyString
  end.

(** ** The checker, a black box

    [mypy.main.main(script_path, stdout, stderr, args)] is not part of
    this repository.  One run of it is what it writes, in order, to its
    two stream parameters, and how it ends.  It may consult the two
    discovery functions of [site]. *)
Inductive stream_param : Type := to_stdout | to_stderr.

Inductive ending : Type :=
  | Returns
  | RaisesSystemExit (code : exit_code)
  | RaisesOther (what : string).

Record checker_run : Type := mkRun {
  writes : list (stream_param * string);
  ends : ending
}.

Definition checker : Type :=
  option (list string) -> string -> list string -> checker_run.

Definition do_write (stdout stderr : handle) (hp : list string)
    (wr : stream_param * string) : list string :=
  match wr with
  | (to_stdout, text) => heap_write stdout text hp
  | (to_stderr, text) => heap_write stderr text hp
  end.

Definition main (mypy : checker) (script_path : option string)
    (stdout stderr : handle) (args : list string) : M unit :=
  fun w =>
    let run := mypy (call_getsitepackages w (site_getsitepackages w))
                    (call_getusersitepackages (site_getusersitepackages w)) args in
    let w' := mkWorld (site_getsitepackages w) (site_getusersitepackages w)
                      (_original_getsitepackages w) (_original_getusersitepackages w)
                      (fold_left (do_write stdout stderr) (writes run) (heap w))
                      (trace w ++ [CallMain args]) in
    match ends run with
    | Returns => (inl tt, w')
    | RaisesSystemExit code => (inr (SystemExit code), w')
    | RaisesOther what => (inr (OtherError what), w')
    end.

(** ** The module *)

(** Lines 10-11, run when the module is loaded. *)
Definition module_globals : M unit :=
  modify (fun w =>
    mkWorld (site_getsitepackages w) (site_getusersitepackages w)
            (site_getsitepackages w) (site_getusersitepackages w)
            (heap w) (trace w)).

(** [for x in l: body x]. *)
Fixpoint for_each {A} (l : list A) (body : A -> M unit) : M unit :=
  match l with
  | [] => ret tt
  | x :: rest => body x ;; for_each rest body
  end.

Definition unreadable_message (external_deps_manifest_path : string) : string :=
  "Unexpected error while reading dependency manifest file at '"
    +:+ external_deps_manifest_path +:+ "'".

(** Lines 14-64. *)
Definition monkey_patch_sitepackages (fs : filesystem)
    (external_deps_manifest_path runfiles_root : string) : M unit :=
  external_deps_manifest <-
    match read_text fs external_deps_manifest_path with
    | inl text => ret (split_newline text)
    | inr e =>
        print (unreadable_message external_deps_manifest_path +:+ " " +:+ e) sys_stdout ;;
        sys_exit (CodeInt 1)
    end ;;
  let site_packages := map (os_path_join runfiles_root) external_deps_manifest in
  for_each site_packages (fun site_package => assert (os_path_exists fs site_package)) ;;
  emit CallMonkeyPatch ;;
  modify (fun w =>
    mkWorld (__bazel_override_getsitepackages__ site_packages)
            __bazel_override_getusersitepackages__
            (_original_getsitepackages w) (_original_getusersitepackages w)
            (heap w) (trace w)).

(** Lines 67-69. *)
Definition restore_original_sitepackages : M unit :=
  emit CallRestore ;;
  modify (fun w =>
    mkWorld (_original_getsitepackages w) (_original_getusersitepackages w)
            (_original_getsitepackages w) (_original_getusersitepackages w)
            (heap w) (trace w)).

(** What the script is started with: the file system, the variable
    [TEST_SRCDIR] of the environment, the working directory, and the
    result of [parser.parse_known_args()]: the value of
    [--external_deps] and the arguments left for the checker. *)
Record invocation : Type := mkInvocation {
  fs : filesystem;
  TEST_SRCDIR : option string;
  getcwd : string;
  external_deps : string;
  unknown : list string
}.

(** Lines 77-79: [os.environ.get('TEST_SRCDIR') or os.path.join(...)];
    [or] passes over [None] and over the empty string. *)
Definition runfiles_root (inv : invocation) : string :=
  match TEST_SRCDIR inv with
  | Some (String c rest) => String c rest
  | _ => os_path_join (getcwd inv) "external"
  end.

(** Lines 83-93: the [try] statement; its value is [exit_status]. *)
Definition checked_call (mypy : checker) (stdout stderr : handle)
    (args : list string) : M exit_code :=
  try_finally
    (try_except_SystemExit
       (main mypy None stderr stderr args ;;
        ret (CodeInt 0))
       (fun code =>
          out <- getvalue stdout ;;
          print out sys_stdout ;;
          err <- getvalue stderr ;;
          print err sys_stderr ;;
          ret code))
    restore_original_sitepackages.

(** Lines 72-94, the [__main__] block. *)
Definition main_block (inv : invocation) (mypy : checker) : M unit :=
  monkey_patch_sitepackages (fs inv) (external_deps inv) (runfiles_root inv) ;;
  stdout <- StringIO ;;
  stderr <- StringIO ;;
  exit_status <- checked_call mypy stdout stderr (unknown inv) ;;
  sys_exit exit_status.

(** The whole module run as a script. *)
Definition script (inv : invocation) (mypy : checker) : M unit :=
  module_globals ;;
  main_block inv mypy.

(** ** Observations on a trace *)

(** The text a real stream has received. *)
Fixpoint written (f : real_stream) (tr : list event) : string :=
  match tr with
  | [] => EmptyString
  | Write g text :: rest =>
      match f, g with
      | sys_stdout, sys_stdout | sys_stderr, sys_stderr => text +:+ written f rest
      | _, _ => written f rest
      end
  | _ :: rest => written f rest
  end.

Definition is_restore (e : event) : bool :=
  match e with CallRestore => true | _ => false end.

Definition is_write (e : event) : bool :=
  match e with Write _ _ => true | _ => false end.

Fixpoint count (p : event -> bool) (tr : list event) : nat :=
  match tr with
  | [] => O
  | e :: rest => ((if p e then 1 else 0) + count p rest)%nat
  end.

(** The text the checker has written, over both stream parameters, in
    the order of the writes. *)
Definition captured (run : checker_run) : string :=
  fold_right (fun wr acc => snd wr +:+ acc) EmptyString (writes run).

Definition nl : string := String newline EmptyString.

(** ** The manifest of an invocation *)

(** Lines 40-48 for the text [text] of the manifest. *)
Definition site_packages_of (inv : invocation) (text : string) : list string :=
  map (os_path_join (runfiles_root inv)) (split_newline text).

(** What [site.getsitepackages()] gives while the override made from
    [text] is installed, in a process whose primary function was
    [original] when the module was loaded. *)
Definition overridden_result (inv : invocation) (text : string)
    (original : getsitepackages_fn) : option (list string) :=
  match original with
  | host_getsitepackages l => Some (site_packages_of inv text ++ l)
  | __bazel_override_getsitepackages__ _ => None
  end.

(** The run of the checker in the invocation [inv], started in [w0]. *)
Definition the_run (inv : invocation) (text : string) (mypy : checker)
    (w0 : world) : checker_run :=
  mypy (overridden_result inv text (site_getsitepackages w0)) EmptyString (unknown inv).

(** ** A concrete process

    The sandbox [/sandbox] holds [libs/foo] and [libs/bar]; the
    manifest [deps.txt] lists both, the manifest [more.txt] the second
    only; no other file exists. *)
Definition example_fs : filesystem :=
  mkFs (fun p => if String.eqb p "deps.txt"
                 then inl ("libs/foo" +:+ nl +:+ "libs/bar")
                 else if String.eqb p "more.txt"
                 then inl "libs/bar"
                 else inr "[Errno 2] No such file or directory")
       (fun p => String.eqb p "/sandbox/libs/foo" || String.eqb p "/sandbox/libs/bar").

Definition example_invocation : invocation :=
  mkInvocation example_fs (Some "/sandbox") "/work" "deps.txt" ["a.py"].

(** The same, with a manifest path that cannot be read. *)
Definition example_unreadable : invocation :=
  mkInvocation example_fs (Some "/sandbox") "/work" "nowhere.txt" ["a.py"].

(** The same, outside a test: [/work/external/libs/foo] does not exist. *)
Definition example_stale : invocation :=
  mkInvocation example_fs None "/work" "deps.txt" ["a.py"].

(** A process before the module is loaded: the host's functions are in
    [site], the module globals are not bound yet (their fields hold
    values that lines 10-11 overwrite). *)
Definition example_world : world :=
  mkWorld (host_getsitepackages ["/usr/lib/python3/site-packages"])
          (host_getusersitepackages "/home/dev/.local/lib/python3/site-packages")
          (host_getsitepackages []) (host_getusersitepackages EmptyString)
          [] [].

(** The process once lines 10-11 have run. *)
Definition example_loaded : world := snd (module_globals example_world).

(** A checker that finds nothing and returns. *)
Definition passing_checker : checker :=
  fun _ _ _ => mkRun [] Returns.

(** A checker that reports a type error and stops with status 1. *)
Definition failing_checker : checker :=
  fun _ _ _ =>
    mkRun [(to_stdout, "a.py:1: error: Incompatible types");
           (to_stderr, "!")]
          (RaisesSystemExit (CodeInt 1)).

(** A checker that prints its version and stops with status 0, as an
    [argparse] version action does. *)
Definition version_checker : checker :=
  fun _ _ _ => mkRun [(to_stdout, "mypy 0.750")] (RaisesSystemExit (CodeInt 0)).

(** ** The sentences of the specification that the code does not bear out

    Each is written down as it reads, for one run, to be tested on a
    concrete process. *)

(** "A second call before restoration corrupts the captured originals":
    after two installs the captured functions are no longer those of
    the process before the load, and a restore does not bring these
    back. *)
Definition second_install_corrupts (fs : filesystem) (p1 p2 R : string)
    (w0 : world) : Prop :=
  forall w2,
    (module_globals ;;
     monkey_patch_sitepackages fs p1 R ;;
     monkey_patch_sitepackages fs p2 R) w0 = (inl tt, w2) ->
    (_original_getsitepackages w2, _original_getusersitepackages w2)
      <> (site_getsitepackages w0, site_getusersitepackages w0) /\
    (site_getsitepackages (snd (restore_original_sitepackages w2)),
     site_getusersitepackages (snd (restore_original_sitepackages w2)))
      <> (site_getsitepackages w0, site_getusersitepackages w0).

(** "If the resulting status code is exactly zero, emit nothing to the
    real output streams", a [SystemExit] carrying zero included. *)
Definition silent_when_zero (inv : invocation) (mypy : checker) (w0 : world) : Prop :=
  forall w',
    script inv mypy w0 = (inr (SystemExit (CodeInt 0)), w') ->
    written sys_stdout (trace w') = written sys_stdout (trace w0) /\
    written sys_stderr (trace w') = written sys_stderr (trace w0).

(** "If the status code is non-zero, flush the captured sink to the
    real standard error stream and a duplicate to standard output". *)
Definition duplicated_when_nonzero (inv : invocation) (text : string)
    (mypy : checker) (w0 : world) : Prop :=
  forall code w',
    script inv mypy w0 = (inr (SystemExit code), w') ->
    code <> CodeInt 0 ->
    written sys_stderr (trace w')
      = written sys_stderr (trace w0) +:+ captured (the_run inv text mypy w0) +:+ nl /\
    written sys_stdout (trace w')
      = written sys_stdout (trace w0) +:+ captured (the_run inv text mypy w0) +:+ nl.

(** "The captured diagnostic text appears on standard error after
    restoration has already occurred": before every write to the real
    standard error there is a call of the restore function. *)
Definition restored_before_emission (tr : list event) : Prop :=
  forall pre text post,
    tr = pre ++ Write sys_stderr text :: post ->
    (1 <= count is_restore pre)%nat.

(** ** Further observations *)



(** ["\n".join(l)], the inverse of line 31's [split]. *)
Fixpoint join_newline (l : list string) : string :=
  match l with
  | [] => EmptyString
  | [x] => x
  | x :: rest => x +:+ String newline (join_newline rest)
  end.

Fixpoint contains_newline (s : string) : bool :=
  match s with
  | EmptyString => false
  | String c rest => Ascii.eqb c newline || contains_newline rest
  end.

(** A manifest whose one line is ended by a line end; the root
    [/sandbox/] itself exists. *)
Definition example_trailing_fs : filesystem :=
  mkFs (fun p => if String.eqb p "deps.txt"
                 then inl ("libs/foo" +:+ nl)
                 else inr "[Errno 2] No such file or directory")
       (fun p => String.eqb p "/sandbox/libs/foo" || String.eqb p "/sandbox/").

(** An empty manifest file; the root [/sandbox/] itself exists. *)
Definition example_empty_fs : filesystem :=
  mkFs (fun p => if String.eqb p "deps.txt"
                 then inl EmptyString
                 else inr "[Errno 2] No such file or directory")
       (fun p => String.eqb p "/sandbox/").

(** * Properties *)

(** ** Strings, lists and traces *)

Lemma append_assoc (a b c : string) : (a +:+ b) +:+ c = a +:+ (b +:+ c).
Proof.
  induction a as [|x a IH]; [reflexivity |].
  change (String x ((a +:+ b) +:+ c) = String x (a +:+ (b +:+ c))).
  now rewrite IH.
Qed.

Lemma append_empty_r (a : string) : a +:+ EmptyString = a.
Proof.
  induction a as [|x a IH]; [reflexivity |].
  change (String x (a +:+ EmptyString) = String x a).
  now rewrite IH.
Qed.

Lemma written_app (f : real_stream) (a b : list event) :
  written f (a ++ b) = written f a +:+ written f b.
Proof.
  induction a as [|e a IH]; simpl; [reflexivity |].
  destruct e as [| | args | g text]; try exact IH.
  destruct f, g; simpl; rewrite ?IH, ?append_assoc; reflexivity.
Qed.

Lemma count_app (p : event -> bool) (a b : list event) :
  count p (a ++ b) = (count p a + count p b)%nat.
Proof. induction a as [|e a IH]; simpl; [reflexivity | rewrite IH; lia]. Qed.

(** ** The heap: both parameters of the checker are one buffer *)

Lemma heap_write_last (hp : list string) (a b text : string) :
  heap_write (S (length hp)) text (hp ++ [a; b]) = hp ++ [a; b +:+ text].
Proof.
  unfold heap_write.
  replace (S (length hp)) with (length hp + 1)%nat by lia.
  rewrite lookup_app_r by lia.
  replace (length hp + 1 - length hp)%nat with 1%nat by lia. simpl.
  now rewrite insert_app_r.
Qed.

Lemma aliased_writes (ws : list (stream_param * string)) (hp : list string) (a b : string) :
  fold_left (do_write (S (length hp)) (S (length hp))) ws (hp ++ [a; b])
  = hp ++ [a; b +:+ fold_right (fun wr acc => snd wr +:+ acc) EmptyString ws].
Proof.
  revert b. induction ws as [|[which text] ws IH]; intros b; simpl.
  - now rewrite append_empty_r.
  - destruct which; cbn [do_write snd]; rewrite heap_write_last, IH, append_assoc;
      reflexivity.
Qed.

(** ** The existence check of lines 51-52 *)

Lemma for_each_assert_ok (exists_ : string -> bool) (l : list string) (w : world) :
  forallb exists_ l = true ->
  for_each l (fun x => assert (exists_ x)) w = (inl tt, w).
Proof.
  induction l as [|x l IH]; simpl; intros H; [reflexivity |].
  apply andb_true_iff in H as [Hx Hl].
  unfold bind, assert. rewrite Hx. simpl. now apply IH.
Qed.

Lemma for_each_assert_fail (exists_ : string -> bool) (l : list string) (w : world) :
  forallb exists_ l = false ->
  for_each l (fun x => assert (exists_ x)) w = (inr AssertionError, w).
Proof.
  induction l as [|x l IH]; simpl; intros H; [discriminate |].
  unfold bind, assert. destruct (exists_ x) eqn:Hx; simpl in *.
  - now apply IH.
  - reflexivity.
Qed.

(** ** What each part of the module computes *)

Lemma monkey_patch_ok (fs : filesystem) (path root text : string) (w : world) :
  read_text fs path = inl text ->
  forallb (os_path_exists fs) (map (os_path_join root) (split_newline text)) = true ->
  monkey_patch_sitepackages fs path root w
  = (inl tt,
     mkWorld (__bazel_override_getsitepackages__
                (map (os_path_join root) (split_newline text)))
             __bazel_override_getusersitepackages__
             (_original_getsitepackages w) (_original_getusersitepackages w)
             (heap w) (trace w ++ [CallMonkeyPatch])).
Proof.
  intros Hread Hall. unfold monkey_patch_sitepackages, bind at 1.
  rewrite Hread. cbn [ret].
  unfold bind at 1. rewrite (for_each_assert_ok _ _ _ Hall).
  reflexivity.
Qed.

Lemma monkey_patch_missing (fs : filesystem) (path root text : string) (w : world) :
  read_text fs path = inl text ->
  forallb (os_path_exists fs) (map (os_path_join root) (split_newline text)) = false ->
  monkey_patch_sitepackages fs path root w = (inr AssertionError, w).
Proof.
  intros Hread Hall. unfold monkey_patch_sitepackages, bind at 1.
  rewrite Hread. cbn [ret].
  unfold bind at 1. rewrite (for_each_assert_fail _ _ _ Hall).
  reflexivity.
Qed.

Lemma monkey_patch_unreadable (fs : filesystem) (path root e : string) (w : world) :
  read_text fs path = inr e ->
  monkey_patch_sitepackages fs path root w
  = (inr (SystemExit (CodeInt 1)),
     mkWorld (site_getsitepackages w) (site_getusersitepackages w)
             (_original_getsitepackages w) (_original_getusersitepackages w)
             (heap w)
             (trace w ++ [Write sys_stdout
                            ((unreadable_message path +:+ " " +:+ e) +:+ nl)])).
Proof.
  intros Hread. unfold monkey_patch_sitepackages, bind at 1.
  rewrite Hread. reflexivity.
Qed.

(** A call of [monkey_patch_sitepackages] that returns has read the
    manifest and found every entry. *)
Lemma monkey_patch_returns (fs : filesystem) (path root : string) (w w' : world) :
  monkey_patch_sitepackages fs path root w = (inl tt, w') ->
  exists text,
    read_text fs path = inl text /\
    forallb (os_path_exists fs) (map (os_path_join root) (split_newline text)) = true /\
    w' = mkWorld (__bazel_override_getsitepackages__
                    (map (os_path_join root) (split_newline text)))
                 __bazel_override_getusersitepackages__
                 (_original_getsitepackages w) (_original_getusersitepackages w)
                 (heap w) (trace w ++ [CallMonkeyPatch]).
Proof.
  intros H. destruct (read_text fs path) as [text|e] eqn:Hread.
  - destruct (forallb (os_path_exists fs)
                (map (os_path_join root) (split_newline text))) eqn:Hall.
    + rewrite (monkey_patch_ok _ _ _ _ _ Hread Hall) in H.
      exists text. split; [reflexivity | split; [exact Hall | congruence]].
    + rewrite (monkey_patch_missing _ _ _ _ _ Hread Hall) in H. discriminate.
  - rewrite (monkey_patch_unreadable _ _ _ _ _ Hread) in H. discriminate.
Qed.

(** The [try] statement of lines 85-93, path by path. *)
Lemma checked_call_run (mypy : checker) (out err : handle) (args : list string)
    (w : world) :
  let run := mypy (call_getsitepackages w (site_getsitepackages w))
                  (call_getusersitepackages (site_getusersitepackages w)) args in
  let hp := fold_left (do_write err err) (writes run) (heap w) in
  let restored tr :=
    mkWorld (_original_getsitepackages w) (_original_getusersitepackages w)
            (_original_getsitepackages w) (_original_getusersitepackages w)
            hp (trace w ++ tr) in
  checked_call mypy out err args w
  = match ends run with
    | Returns =>
        (inl (CodeInt 0), restored [CallMain args; CallRestore])
    | RaisesSystemExit code =>
        (inl code,
         restored [CallMain args;
                   Write sys_stdout (default EmptyString (hp !! out) +:+ nl);
                   Write sys_stderr (default EmptyString (hp !! err) +:+ nl);
                   CallRestore])
    | RaisesOther what =>
        (inr (OtherError what), restored [CallMain args; CallRestore])
    end.
Proof.
  intros run hp restored.
  unfold checked_call, try_finally, try_except_SystemExit, bind at 1, main.
  fold run. fold hp.
  destruct (ends run) as [|code|what]; cbn -[String.append];
    unfold restored; rewrite <- ?app_assoc; reflexivity.
Qed.

(** The whole script when the manifest is readable and every entry of
    it exists: the three ways the checker can end. *)
Lemma script_run (inv : invocation) (mypy : checker) (w0 : world) (text : string) :
  read_text (fs inv) (external_deps inv) = inl text ->
  forallb (os_path_exists (fs inv)) (site_packages_of inv text) = true ->
  let run := the_run inv text mypy w0 in
  let finished tr :=
    mkWorld (site_getsitepackages w0) (site_getusersitepackages w0)
            (site_getsitepackages w0) (site_getusersitepackages w0)
            (heap w0 ++ [EmptyString; captured run])
            (trace w0 ++ CallMonkeyPatch :: CallMain (unknown inv) :: tr) in
  script inv mypy w0
  = match ends run with
    | Returns =>
        (inr (SystemExit (CodeInt 0)), finished [CallRestore])
    | RaisesSystemExit code =>
        (inr (SystemExit code),
         finished [Write sys_stdout nl;
                   Write sys_stderr (captured run +:+ nl);
                   CallRestore])
    | RaisesOther what =>
        (inr (OtherError what), finished [CallRestore])
    end.
Proof.
  intros Hread Hall run finished.
  unfold script, main_block, bind at 1, module_globals, modify.
  unfold bind at 1. unfold site_packages_of in Hall.
  rewrite (monkey_patch_ok _ _ _ _ _ Hread Hall).
  unfold bind at 1, StringIO at 1. cbn [heap site_getsitepackages
    site_getusersitepackages _original_getsitepackages
    _original_getusersitepackages trace].
  unfold bind at 1, StringIO at 1. cbn [heap site_getsitepackages
    site_getusersitepackages _original_getsitepackages
    _original_getusersitepackages trace].
  unfold bind at 1. rewrite checked_call_run.
  cbn [heap site_getsitepackages site_getusersitepackages
       _original_getsitepackages _original_getusersitepackages trace
       call_getsitepackages call_getusersitepackages].
  change (match site_getsitepackages w0 with
          | host_getsitepackages l =>
              Some (map (os_path_join (runfiles_root inv)) (split_newline text) ++ l)
          | __bazel_override_getsitepackages__ _ => None
          end) with (overridden_result inv text (site_getsitepackages w0)).
  fold (the_run inv text mypy w0). fold run.
  rewrite <- (app_assoc (heap w0) [EmptyString] [EmptyString]).
  rewrite length_app. cbn [length app].
  replace (length (heap w0) + 1)%nat with (S (length (heap w0))) by lia.
  rewrite aliased_writes. fold (captured run).
  rewrite list_lookup_middle by reflexivity.
  replace (S (length (heap w0))) with (length (heap w0) + 1)%nat by lia.
  rewrite lookup_app_r by lia.
  replace (length (heap w0) + 1 - length (heap w0))%nat with 1%nat by lia.
  cbn [lookup list_lookup default from_option].
  unfold finished.
  destruct (ends run) as [|code|what]; unfold sys_exit, raise;
    cbn [trace]; rewrite <- ?app_assoc; reflexivity.
Qed.

(** The same, for a checker that stops with [SystemExit]: the events
    the script adds to the trace. *)
Lemma script_system_exit (inv : invocation) (mypy : checker) (w0 : world)
    (text : string) (code : exit_code) :
  read_text (fs inv) (external_deps inv) = inl text ->
  forallb (os_path_exists (fs inv)) (site_packages_of inv text) = true ->
  ends (the_run inv text mypy w0) = RaisesSystemExit code ->
  exists w',
    script inv mypy w0 = (inr (SystemExit code), w') /\
    trace w' = trace w0 ++
               [CallMonkeyPatch; CallMain (unknown inv);
                Write sys_stdout nl;
                Write sys_stderr (captured (the_run inv text mypy w0) +:+ nl);
                CallRestore].
Proof.
  intros Hread Hall Hends.
  rewrite (script_run inv mypy w0 text Hread Hall), Hends.
  eexists. split; reflexivity.
Qed.

Lemma script_missing (inv : invocation) (mypy : checker) (w0 : world) (text : string) :
  read_text (fs inv) (external_deps inv) = inl text ->
  forallb (os_path_exists (fs inv)) (site_packages_of inv text) = false ->
  script inv mypy w0 = (inr AssertionError, snd (module_globals w0)).
Proof.
  intros Hread Hall.
  unfold script, main_block, bind at 1, module_globals, modify.
  unfold bind at 1. unfold site_packages_of in Hall.
  now rewrite (monkey_patch_missing _ _ _ _ _ Hread Hall).
Qed.

Lemma script_unreadable (inv : invocation) (mypy : checker) (w0 : world) (e : string) :
  read_text (fs inv) (external_deps inv) = inr e ->
  script inv mypy w0
  = (inr (SystemExit (CodeInt 1)),
     mkWorld (site_getsitepackages w0) (site_getusersitepackages w0)
             (site_getsitepackages w0) (site_getusersitepackages w0)
             (heap w0)
             (trace w0 ++ [Write sys_stdout
                             ((unreadable_message (external_deps inv) +:+ " " +:+ e)
                                +:+ nl)])).
Proof.
  intros Hread.
  unfold script, main_block, bind at 1, module_globals, modify.
  unfold bind at 1.
  now rewrite (monkey_patch_unreadable _ _ _ _ _ Hread).
Qed.

(** Whatever happens, the script leaves [site] as it found it. *)
Lemma script_leaves_site_as_found (inv : invocation) (mypy : checker) (w0 : world) :
  site_getsitepackages (snd (script inv mypy w0)) = site_getsitepackages w0 /\
  site_getusersitepackages (snd (script inv mypy w0)) = site_getusersitepackages w0.
Proof.
  destruct (read_text (fs inv) (external_deps inv)) as [text|e] eqn:Hread.
  - destruct (forallb (os_path_exists (fs inv)) (site_packages_of inv text)) eqn:Hall.
    + rewrite (script_run _ mypy w0 _ Hread Hall).
      destruct (ends (the_run inv text mypy w0)); split; reflexivity.
    + rewrite (script_missing _ mypy w0 _ Hread Hall). split; reflexivity.
  - rewrite (script_unreadable _ mypy w0 _ Hread). split; reflexivity.
Qed.

(** [os.path.join] on a root without a trailing separator and a
    relative entry puts one separator between them. *)
Lemma os_path_join_relative (R p : string) :
  R <> EmptyString -> endswith_sep R = false -> startswith_sep p = false ->
  os_path_join R p = R +:+ String sep p.
Proof.
  intros HR Hend Hrel. unfold os_path_join. rewrite Hrel, Hend.
  destruct R; [congruence | reflexivity].
Qed.

Lemma forallb_exists_of_In (fs : filesystem) (R : string) (ps : list string) :
  (forall p, In p ps -> os_path_exists fs (os_path_join R p) = true) ->
  forallb (os_path_exists fs) (map (os_path_join R) ps) = true.
Proof.
  intros H. apply forallb_forall. intros x Hx.
  apply in_map_iff in Hx as [p [<- Hp]]. now apply H.
Qed.

Lemma forallb_exists_of_missing (fs : filesystem) (R p : string) (ps : list string) :
  In p ps -> os_path_exists fs (os_path_join R p) = false ->
  forallb (os_path_exists fs) (map (os_path_join R) ps) = false.
Proof.
  intros Hin Hno.
  destruct (forallb (os_path_exists fs) (map (os_path_join R) ps)) eqn:Hall;
    [| reflexivity].
  rewrite forallb_forall in Hall.
  rewrite (Hall (os_path_join R p)) in Hno; [discriminate |].
  apply in_map_iff. now exists p.
Qed.

(** * The claims *)

Section Controller.

Variable fs : filesystem.
Variables path R : string.

(** C1.  For every sandbox root [R] and every manifest whose entries
    [p1 .. pn] all exist once joined to [R], a call of
    [monkey_patch_sitepackages] returns, and afterwards
    [site.getsitepackages()] gives the joined entries
    [os.path.join(R, p1) .. os.path.join(R, pn)], in manifest order,
    followed by what the function captured at load time gave before
    the call. *)
Theorem getsitepackages_after_install (text : string) (ps orig : list string)
    (w : world) :
  read_text fs path = inl text ->
  split_newline text = ps ->
  (forall p, In p ps -> os_path_exists fs (os_path_join R p) = true) ->
  _original_getsitepackages w = site_getsitepackages w ->
  call_getsitepackages w (site_getsitepackages w) = Some orig ->
  exists w',
    monkey_patch_sitepackages fs path R w = (inl tt, w') /\
    call_getsitepackages w' (site_getsitepackages w')
    = Some (map (os_path_join R) ps ++ orig).
Proof.
  intros Hread Hps Hall Hcap Horig. subst ps.
  rewrite (monkey_patch_ok _ _ _ _ w Hread (forallb_exists_of_In _ _ _ Hall)).
  eexists. split; [reflexivity |].
  cbn [call_getsitepackages site_getsitepackages _original_getsitepackages].
  rewrite Hcap.
  destruct (site_getsitepackages w) as [l|sp] eqn:Hsite; simpl in Horig.
  - congruence.
  - rewrite Hcap in Horig. discriminate.
Qed.

(** C5.  Once [monkey_patch_sitepackages] has returned,
    [site.getusersitepackages()] gives the empty string, whatever the
    function it replaces would have given. *)
Theorem getusersitepackages_empty_while_installed (w w' : world) :
  monkey_patch_sitepackages fs path R w = (inl tt, w') ->
  call_getusersitepackages (site_getusersitepackages w') = EmptyString.
Proof.
  intros H. apply monkey_patch_returns in H as (text & _ & _ & ->).
  reflexivity.
Qed.

(** C6.  After the module has captured the two functions and an
    override has been installed, [restore_original_sitepackages]
    puts both functions of [site] back to the captured ones, those of
    the process before the load; a second call changes neither of
    them, nor the captured ones. *)
Theorem restore_exact_and_idempotent (w0 w1 : world) :
  (module_globals ;; monkey_patch_sitepackages fs path R) w0 = (inl tt, w1) ->
  exists w2 w3,
    restore_original_sitepackages w1 = (inl tt, w2) /\
    restore_original_sitepackages w2 = (inl tt, w3) /\
    site_getsitepackages w2 = site_getsitepackages w0 /\
    site_getusersitepackages w2 = site_getusersitepackages w0 /\
    site_getsitepackages w3 = site_getsitepackages w2 /\
    site_getusersitepackages w3 = site_getusersitepackages w2 /\
    _original_getsitepackages w3 = _original_getsitepackages w2 /\
    _original_getusersitepackages w3 = _original_getusersitepackages w2 /\
    heap w3 = heap w2.
Proof.
  unfold bind at 1, module_globals, modify. intros H.
  apply monkey_patch_returns in H as (text & _ & _ & ->).
  unfold restore_original_sitepackages, bind, emit, modify.
  do 2 eexists. split; [reflexivity |]. split; [reflexivity |].
  cbn [site_getsitepackages site_getusersitepackages _original_getsitepackages
       _original_getusersitepackages heap].
  repeat split.
Qed.

End Controller.

Lemma getsitepackages_after_install_witness :
  exists w',
    monkey_patch_sitepackages example_fs "deps.txt" "/sandbox" example_loaded
    = (inl tt, w') /\
    call_getsitepackages w' (site_getsitepackages w')
    = Some ["/sandbox/libs/foo"; "/sandbox/libs/bar";
            "/usr/lib/python3/site-packages"].
Proof.
  apply (getsitepackages_after_install example_fs "deps.txt" "/sandbox"
           ("libs/foo" +:+ nl +:+ "libs/bar") ["libs/foo"; "libs/bar"]
           ["/usr/lib/python3/site-packages"] example_loaded).
  - reflexivity.
  - reflexivity.
  - intros p [<- | [<- | []]]; reflexivity.
  - reflexivity.
  - reflexivity.
Defined.

Lemma getusersitepackages_empty_while_installed_witness :
  call_getusersitepackages
    (site_getusersitepackages
       (snd (monkey_patch_sitepackages example_fs "deps.txt" "/sandbox" example_loaded)))
  = EmptyString.
Proof.
  apply (getusersitepackages_empty_while_installed example_fs "deps.txt" "/sandbox"
           example_loaded).
  reflexivity.
Defined.

Lemma restore_exact_and_idempotent_witness :
  exists w2 w3,
    restore_original_sitepackages
      (snd ((module_globals ;;
             monkey_patch_sitepackages example_fs "deps.txt" "/sandbox") example_world))
    = (inl tt, w2) /\
    restore_original_sitepackages w2 = (inl tt, w3) /\
    site_getsitepackages w2 = site_getsitepackages example_world /\
    site_getusersitepackages w2 = site_getusersitepackages example_world /\
    site_getsitepackages w3 = site_getsitepackages w2 /\
    site_getusersitepackages w3 = site_getusersitepackages w2 /\
    _original_getsitepackages w3 = _original_getsitepackages w2 /\
    _original_getusersitepackages w3 = _original_getusersitepackages w2 /\
    heap w3 = heap w2.
Proof.
  apply (restore_exact_and_idempotent example_fs "deps.txt" "/sandbox" example_world).
  reflexivity.
Defined.

(** C9, as the specification has it, fails: in the concrete process two
    installs in a row both return, the captured functions are still
    the host's, and the restore brings the host's functions back. *)
Lemma second_install_corrupts_counterexample :
  ~ second_install_corrupts example_fs "deps.txt" "more.txt" "/sandbox" example_world.
Proof.
  intros H. destruct (H _ eq_refl) as [Hcaptured _].
  apply Hcaptured. reflexivity.
Qed.

(** C9, amended.  [monkey_patch_sitepackages] never assigns the two
    module globals: after a second install before any restore they
    still hold the functions captured at load time, the override in
    place is the one of the second manifest, and
    [restore_original_sitepackages] puts the functions of the process
    before the load back into [site]. *)
Theorem second_install_keeps_originals (fs : filesystem) (p1 p2 R : string)
    (w0 w2 : world) :
  (module_globals ;;
   monkey_patch_sitepackages fs p1 R ;;
   monkey_patch_sitepackages fs p2 R) w0 = (inl tt, w2) ->
  _original_getsitepackages w2 = site_getsitepackages w0 /\
  _original_getusersitepackages w2 = site_getusersitepackages w0 /\
  (exists text2,
     read_text fs p2 = inl text2 /\
     site_getsitepackages w2
     = __bazel_override_getsitepackages__ (map (os_path_join R) (split_newline text2))) /\
  exists w3,
    restore_original_sitepackages w2 = (inl tt, w3) /\
    site_getsitepackages w3 = site_getsitepackages w0 /\
    site_getusersitepackages w3 = site_getusersitepackages w0.
Proof.
  unfold bind at 1, module_globals, modify. unfold bind at 1.
  destruct (monkey_patch_sitepackages fs p1 R _) as [[[]|e] w1] eqn:H1;
    [| discriminate].
  intros H2.
  apply monkey_patch_returns in H1 as (text1 & _ & _ & ->).
  apply monkey_patch_returns in H2 as (text2 & Hread2 & _ & ->).
  cbn [_original_getsitepackages _original_getusersitepackages site_getsitepackages].
  split; [reflexivity |]. split; [reflexivity |].
  split; [exists text2; split; [exact Hread2 | reflexivity] |].
  eexists. repeat split.
Qed.

Lemma second_install_keeps_originals_witness :
  _original_getsitepackages
    (snd ((module_globals ;;
           monkey_patch_sitepackages example_fs "deps.txt" "/sandbox" ;;
           monkey_patch_sitepackages example_fs "more.txt" "/sandbox") example_world))
  = host_getsitepackages ["/usr/lib/python3/site-packages"].
Proof.
  apply (second_install_keeps_originals example_fs "deps.txt" "more.txt" "/sandbox"
           example_world).
  reflexivity.
Defined.

(** C2.  On every way out of the [try] statement of lines 85-93 - the
    checker returns, raises [SystemExit], or raises anything else -
    [restore_original_sitepackages] is called once, as the last thing
    before control leaves the statement, and [site] then holds the
    captured functions again. *)
Theorem restore_once_on_every_exit_path (mypy : checker) (out err : handle)
    (args : list string) (w : world) :
  let run := mypy (call_getsitepackages w (site_getsitepackages w))
                  (call_getusersitepackages (site_getusersitepackages w)) args in
  let r := checked_call mypy out err args w in
  fst r = match ends run with
          | Returns => inl (CodeInt 0)
          | RaisesSystemExit code => inl code
          | RaisesOther what => inr (OtherError what)
          end /\
  (exists pre,
     trace (snd r) = trace w ++ pre ++ [CallRestore] /\
     count is_restore pre = O) /\
  count is_restore (trace (snd r)) = S (count is_restore (trace w)) /\
  site_getsitepackages (snd r) = _original_getsitepackages w /\
  site_getusersitepackages (snd r) = _original_getusersitepackages w.
Proof.
  intros run r. unfold r. rewrite checked_call_run. fold run.
  destruct (ends run) as [|code|what]; cbn [fst snd trace site_getsitepackages
    site_getusersitepackages].
  - split; [reflexivity |]. split.
    + exists [CallMain args]. split; reflexivity.
    + rewrite count_app. simpl. repeat split; lia.
  - split; [reflexivity |]. split.
    + eexists [CallMain args; Write sys_stdout _; Write sys_stderr _].
      split; reflexivity.
    + rewrite count_app. simpl. repeat split; lia.
  - split; [reflexivity |]. split.
    + exists [CallMain args]. split; reflexivity.
    + rewrite count_app. simpl. repeat split; lia.
Qed.

Section Driver.

Variable inv : invocation.
Variable mypy : checker.
Variable w0 : world.

(** C3, amended.  When the manifest is in order and the checker
    returns without raising, the script ends with [sys.exit(0)] and
    has written nothing to the real standard output or standard
    error. *)
Theorem silent_when_checker_returns (text : string) :
  read_text (fs inv) (external_deps inv) = inl text ->
  forallb (os_path_exists (fs inv)) (site_packages_of inv text) = true ->
  ends (the_run inv text mypy w0) = Returns ->
  exists w',
    script inv mypy w0 = (inr (SystemExit (CodeInt 0)), w') /\
    written sys_stdout (trace w') = written sys_stdout (trace w0) /\
    written sys_stderr (trace w') = written sys_stderr (trace w0) /\
    count is_write (trace w') = count is_write (trace w0).
Proof.
  intros Hread Hall Hends.
  rewrite (script_run inv mypy w0 text Hread Hall), Hends.
  eexists. split; [reflexivity |]. cbn [trace].
  rewrite !written_app, count_app. simpl.
  rewrite !append_empty_r. repeat split. lia.
Qed.

(** C4, amended.  When the checker stops with a [SystemExit] whose
    code is not zero, the text captured in the one sink that both of
    its streams were given is written, with a line end, to the real
    standard error; the real standard output receives the content of
    the other [StringIO], which the checker was never given: a line
    end and no diagnostics. *)
Theorem captured_goes_to_stderr_only (text : string) (code : exit_code) :
  read_text (fs inv) (external_deps inv) = inl text ->
  forallb (os_path_exists (fs inv)) (site_packages_of inv text) = true ->
  ends (the_run inv text mypy w0) = RaisesSystemExit code ->
  code <> CodeInt 0 ->
  exists w',
    script inv mypy w0 = (inr (SystemExit code), w') /\
    written sys_stderr (trace w')
      = written sys_stderr (trace w0) +:+ captured (the_run inv text mypy w0) +:+ nl /\
    written sys_stdout (trace w') = written sys_stdout (trace w0) +:+ nl.
Proof.
  intros Hread Hall Hends _.
  rewrite (script_run inv mypy w0 text Hread Hall), Hends.
  eexists. split; [reflexivity |]. cbn [trace].
  rewrite !written_app. simpl. rewrite !append_empty_r. split; reflexivity.
Qed.

(** C7, amended.  When the checker stops with a [SystemExit] whose
    code is not zero, the captured text is written to the real
    standard error in the [except] clause, and
    [restore_original_sitepackages] is called after it, in the
    [finally] clause: the write is the last event before the
    restore, and no restore comes earlier. *)
Theorem emission_precedes_restore (text : string) (code : exit_code) :
  read_text (fs inv) (external_deps inv) = inl text ->
  forallb (os_path_exists (fs inv)) (site_packages_of inv text) = true ->
  ends (the_run inv text mypy w0) = RaisesSystemExit code ->
  code <> CodeInt 0 ->
  exists w' pre,
    script inv mypy w0 = (inr (SystemExit code), w') /\
    trace w' = trace w0 ++ pre ++
               [Write sys_stderr (captured (the_run inv text mypy w0) +:+ nl);
                CallRestore] /\
    count is_restore pre = O.
Proof.
  intros Hread Hall Hends _.
  rewrite (script_run inv mypy w0 text Hread Hall), Hends.
  eexists. exists [CallMonkeyPatch; CallMain (unknown inv); Write sys_stdout nl].
  split; [reflexivity |]. split; reflexivity.
Qed.

(** C8.  When an entry of the manifest, joined to the root, does not
    exist, the script ends with the [AssertionError] of line 52:
    nothing has been assigned to [site], the checker has not been
    called, and nothing has been written. *)
Theorem missing_path_aborts_before_install (text p : string) :
  read_text (fs inv) (external_deps inv) = inl text ->
  In p (split_newline text) ->
  os_path_exists (fs inv) (os_path_join (runfiles_root inv) p) = false ->
  exists w',
    script inv mypy w0 = (inr AssertionError, w') /\
    site_getsitepackages w' = site_getsitepackages w0 /\
    site_getusersitepackages w' = site_getusersitepackages w0 /\
    trace w' = trace w0 /\
    heap w' = heap w0.
Proof.
  intros Hread Hin Hno.
  rewrite (script_missing inv mypy w0 text Hread
             (forallb_exists_of_missing _ _ _ _ Hin Hno)).
  eexists. repeat split.
Qed.

(** C10.  When the manifest cannot be read, the one thing the script
    writes is the message that names the manifest path and the error,
    to the real standard output; the real standard error receives
    nothing; the script then ends with [sys.exit(1)]. *)
Theorem unreadable_manifest_reported_on_stdout (e : string) :
  read_text (fs inv) (external_deps inv) = inr e ->
  exists w',
    script inv mypy w0 = (inr (SystemExit (CodeInt 1)), w') /\
    trace w' = trace w0 ++
               [Write sys_stdout
                  (("Unexpected error while reading dependency manifest file at '"
                      +:+ external_deps inv +:+ "'" +:+ " " +:+ e) +:+ nl)] /\
    written sys_stderr (trace w') = written sys_stderr (trace w0) /\
    site_getsitepackages w' = site_getsitepackages w0 /\
    site_getusersitepackages w' = site_getusersitepackages w0.
Proof.
  intros Hread. rewrite (script_unreadable inv mypy w0 e Hread).
  eexists. split; [reflexivity |]. cbn [trace]. split.
  - unfold unreadable_message. now rewrite !append_assoc.
  - rewrite written_app. simpl. rewrite append_empty_r. repeat split.
Qed.

End Driver.

(** C3, as the specification has it, fails: a checker that prints its
    version and raises [SystemExit(0)] makes the script end with status
    zero after a line on the real standard output and the version text
    on the real standard error. *)
Lemma silent_when_zero_counterexample :
  ~ silent_when_zero example_invocation version_checker example_world.
Proof.
  intros H.
  destruct (script_system_exit example_invocation version_checker example_world
              ("libs/foo" +:+ nl +:+ "libs/bar") (CodeInt 0)
              eq_refl eq_refl eq_refl) as (w' & Hrun & Htrace).
  destruct (H w' Hrun) as [Hout _].
  rewrite Htrace in Hout. discriminate Hout.
Qed.

Lemma silent_when_checker_returns_witness :
  exists w',
    script example_invocation passing_checker example_world
    = (inr (SystemExit (CodeInt 0)), w') /\
    written sys_stdout (trace w') = written sys_stdout (trace example_world) /\
    written sys_stderr (trace w') = written sys_stderr (trace example_world) /\
    count is_write (trace w') = count is_write (trace example_world).
Proof.
  apply (silent_when_checker_returns example_invocation passing_checker example_world
           ("libs/foo" +:+ nl +:+ "libs/bar")).
  - reflexivity.
  - reflexivity.
  - reflexivity.
Defined.

(** C4, as the specification has it, fails: the type error of the
    failing checker reaches the real standard error, and the real
    standard output receives a line end only. *)
Lemma duplicated_when_nonzero_counterexample :
  ~ duplicated_when_nonzero example_invocation ("libs/foo" +:+ nl +:+ "libs/bar")
      failing_checker example_world.
Proof.
  intros H.
  destruct (script_system_exit example_invocation failing_checker example_world
              ("libs/foo" +:+ nl +:+ "libs/bar") (CodeInt 1)
              eq_refl eq_refl eq_refl) as (w' & Hrun & Htrace).
  destruct (H (CodeInt 1) w' Hrun ltac:(discriminate)) as [_ Hout].
  rewrite Htrace in Hout. discriminate Hout.
Qed.

Lemma captured_goes_to_stderr_only_witness :
  exists w',
    script example_invocation failing_checker example_world
    = (inr (SystemExit (CodeInt 1)), w') /\
    written sys_stderr (trace w')
    = "a.py:1: error: Incompatible types!" +:+ nl /\
    written sys_stdout (trace w') = nl.
Proof.
  apply (captured_goes_to_stderr_only example_invocation failing_checker example_world
           ("libs/foo" +:+ nl +:+ "libs/bar") (CodeInt 1)).
  - reflexivity.
  - reflexivity.
  - reflexivity.
  - discriminate.
Defined.

(** C7, as the specification has it, fails: in the run of the failing
    checker, which ends with status 1, the write to the real standard
    error has no call of the restore function before it. *)
Lemma restored_before_emission_counterexample :
  fst (script example_invocation failing_checker example_world)
  = inr (SystemExit (CodeInt 1)) /\
  ~ restored_before_emission
      (trace (snd (script example_invocation failing_checker example_world))).
Proof.
  split; [reflexivity |]. intros H.
  specialize (H [CallMonkeyPatch; CallMain ["a.py"]; Write sys_stdout nl]
                ("a.py:1: error: Incompatible types!" +:+ nl)
                [CallRestore] eq_refl).
  simpl in H. lia.
Qed.

Lemma emission_precedes_restore_witness :
  exists w' pre,
    script example_invocation failing_checker example_world
    = (inr (SystemExit (CodeInt 1)), w') /\
    trace w' = [] ++ pre ++
               [Write sys_stderr ("a.py:1: error: Incompatible types!" +:+ nl);
                CallRestore] /\
    count is_restore pre = O.
Proof.
  apply (emission_precedes_restore example_invocation failing_checker example_world
           ("libs/foo" +:+ nl +:+ "libs/bar") (CodeInt 1)).
  - reflexivity.
  - reflexivity.
  - reflexivity.
  - discriminate.
Defined.

Lemma missing_path_aborts_before_install_witness :
  exists w',
    script example_stale passing_checker example_world = (inr AssertionError, w') /\
    site_getsitepackages w' = site_getsitepackages example_world /\
    site_getusersitepackages w' = site_getusersitepackages example_world /\
    trace w' = trace example_world /\
    heap w' = heap example_world.
Proof.
  apply (missing_path_aborts_before_install example_stale passing_checker example_world
           ("libs/foo" +:+ nl +:+ "libs/bar") "libs/foo").
  - reflexivity.
  - simpl. left. reflexivity.
  - reflexivity.
Defined.

Lemma unreadable_manifest_reported_on_stdout_witness :
  exists w',
    script example_unreadable passing_checker example_world
    = (inr (SystemExit (CodeInt 1)), w') /\
    trace w'
    = [Write sys_stdout
         ("Unexpected error while reading dependency manifest file at 'nowhere.txt' [Errno 2] No such file or directory"
            +:+ nl)] /\
    written sys_stderr (trace w') = EmptyString /\
    site_getsitepackages w' = site_getsitepackages example_world /\
    site_getusersitepackages w' = site_getusersitepackages example_world.
Proof.
  apply (unreadable_manifest_reported_on_stdout example_unreadable passing_checker
           example_world "[Errno 2] No such file or directory").
  reflexivity.
Defined.

(** * Further properties of the module *)

(** ** The manifest text and its lines *)

Lemma append_String (c : ascii) (a b : string) :
  String c a +:+ b = String c (a +:+ b).
Proof. reflexivity. Qed.

Lemma split_newline_not_nil (s : string) : split_newline s <> [].
Proof.
  destruct s as [|c rest]; simpl; [discriminate |].
  destruct (Ascii.eqb c newline); [discriminate |].
  destruct (split_newline rest); discriminate.
Qed.

Lemma join_newline_cons (c : ascii) (hd : string) (tl : list string) :
  join_newline (String c hd :: tl) = String c (join_newline (hd :: tl)).
Proof. destruct tl; reflexivity. Qed.

(** Line 31 loses nothing of the manifest: the entries are never an
    empty list, none of them holds a line end, and put together again
    with line ends they are the text that was read. *)
Theorem split_newline_round_trip (s : string) :
  join_newline (split_newline s) = s /\
  split_newline s <> [] /\
  Forall (fun entry => contains_newline entry = false) (split_newline s).
Proof.
  split; [| split; [apply split_newline_not_nil |]].
  - induction s as [|c rest IH]; [reflexivity |].
    simpl. destruct (Ascii.eqb c newline) eqn:Hc.
    + apply Ascii.eqb_eq in Hc. subst c.
      destruct (split_newline rest) as [|hd tl] eqn:Hsplit.
      * now destruct (split_newline_not_nil rest).
      * change (join_newline (EmptyString :: hd :: tl))
          with (String newline (join_newline (hd :: tl))).
        now rewrite IH.
    + destruct (split_newline rest) as [|hd tl] eqn:Hsplit.
      * now destruct (split_newline_not_nil rest).
      * rewrite join_newline_cons, IH. reflexivity.
  - induction s as [|c rest IH]; simpl.
    + repeat constructor.
    + destruct (Ascii.eqb c newline) eqn:Hc.
      * constructor; [reflexivity | exact IH].
      * destruct (split_newline rest) as [|hd tl] eqn:Hsplit.
        -- repeat constructor. simpl. now rewrite Hc.
        -- inversion IH as [|? ? Hhd Htl]; subst.
           constructor; [| exact Htl]. simpl. now rewrite Hc, Hhd.
Qed.

Lemma split_newline_trailing (t : string) :
  split_newline (t +:+ nl) = split_newline t ++ [EmptyString].
Proof.
  induction t as [|c rest IH]; [reflexivity |].
  rewrite append_String. simpl.
  destruct (Ascii.eqb c newline).
  - now rewrite IH.
  - rewrite IH. destruct (split_newline rest) as [|hd tl] eqn:Hsplit.
    + now destruct (split_newline_not_nil rest).
    + reflexivity.
Qed.

(** A manifest that ends with a line end has a last, empty entry.  It
    is joined to the root like the others: the call returns only if the
    root itself, as [os.path.join(root, '')] spells it, exists, and
    that path is the last of the override's own entries. *)
Theorem trailing_newline_adds_the_root (fs : filesystem) (path R t : string)
    (w w' : world) :
  read_text fs path = inl (t +:+ nl) ->
  monkey_patch_sitepackages fs path R w = (inl tt, w') ->
  os_path_exists fs (os_path_join R EmptyString) = true /\
  site_getsitepackages w'
  = __bazel_override_getsitepackages__
      (map (os_path_join R) (split_newline t) ++ [os_path_join R EmptyString]).
Proof.
  intros Hread Hrun.
  apply monkey_patch_returns in Hrun as (text & Hread' & Hall & ->).
  rewrite Hread in Hread'. injection Hread' as <-.
  rewrite split_newline_trailing, map_app in Hall |- *.
  split; [| reflexivity].
  rewrite forallb_app in Hall. apply andb_true_iff in Hall as [_ Hlast].
  simpl in Hlast. now rewrite andb_true_r in Hlast.
Qed.

Lemma trailing_newline_adds_the_root_witness :
  os_path_exists example_trailing_fs "/sandbox/" = true /\
  site_getsitepackages
    (snd (monkey_patch_sitepackages example_trailing_fs "deps.txt" "/sandbox"
            example_loaded))
  = __bazel_override_getsitepackages__ ["/sandbox/libs/foo"; "/sandbox/"].
Proof.
  apply (trailing_newline_adds_the_root example_trailing_fs "deps.txt" "/sandbox"
           "libs/foo" example_loaded).
  - reflexivity.
  - reflexivity.
Defined.

(** ** Joining an entry to the root *)

Lemma startswith_sep_append (a b : string) :
  startswith_sep a = true -> startswith_sep (a +:+ b) = true.
Proof. destruct a as [|c a]; [discriminate | intros H; exact H]. Qed.


Lemma runfiles_root_absolute (inv : invocation) :
  startswith_sep (getcwd inv) = true ->
  (forall s, TEST_SRCDIR inv = Some s -> s = EmptyString \/ startswith_sep s = true) ->
  startswith_sep (runfiles_root inv) = true.
Proof.
  intros Hcwd Henv. unfold runfiles_root.
  assert (Hfallback : startswith_sep (os_path_join (getcwd inv) "external") = true).
  { unfold os_path_join. cbn [startswith_sep Ascii.eqb sep Bool.eqb].
    destruct (_ || _); now apply startswith_sep_append. }
  destruct (TEST_SRCDIR inv) as [[|c rest]|] eqn:Hvar; try exact Hfallback.
  destruct (Henv _ eq_refl) as [Hnil | Habs]; [discriminate | exact Habs].
Qed.

(** "site-packages must be absolute paths" (line 45): with an absolute
    working directory, and a [TEST_SRCDIR] that is unset, empty or
    absolute, every path of lines 40-48 is absolute, whatever the
    manifest holds. *)
Theorem site_packages_are_absolute (inv : invocation) (text : string) :
  startswith_sep (getcwd inv) = true ->
  (forall s, TEST_SRCDIR inv = Some s -> s = EmptyString \/ startswith_sep s = true) ->
  Forall (fun site_package => startswith_sep site_package = true)
         (site_packages_of inv text).
Proof.
  intros Hcwd Henv. pose proof (runfiles_root_absolute inv Hcwd Henv) as Hroot.
  unfold site_packages_of. apply Forall_forall. intros x Hx.
  apply list_elem_of_In, in_map_iff in Hx as [p [<- _]].
  unfold os_path_join. destruct (startswith_sep p) eqn:Hp; [exact Hp |].
  destruct (_ || _); now apply startswith_sep_append.
Qed.

Lemma site_packages_are_absolute_witness :
  Forall (fun site_package => startswith_sep site_package = true)
         (site_packages_of example_stale ("libs/foo" +:+ nl +:+ "libs/bar")).
Proof.
  apply (site_packages_are_absolute example_stale).
  - reflexivity.
  - intros s Hs. discriminate Hs.
Defined.

(** ** The install is all or nothing *)

(** [monkey_patch_sitepackages] either returns with both functions of
    [site] replaced, or raises with both left as they were; it raises
    nothing but the [AssertionError] of line 52 and the [SystemExit(1)]
    of line 38, and in no case touches the captured functions or the
    [StringIO] heap. *)
Theorem monkey_patch_all_or_nothing (fs : filesystem) (path R : string)
    (w : world) :
  let r := monkey_patch_sitepackages fs path R w in
  _original_getsitepackages (snd r) = _original_getsitepackages w /\
  _original_getusersitepackages (snd r) = _original_getusersitepackages w /\
  heap (snd r) = heap w /\
  match fst r with
  | inl _ =>
      (exists site_packages,
         site_getsitepackages (snd r)
         = __bazel_override_getsitepackages__ site_packages) /\
      site_getusersitepackages (snd r) = __bazel_override_getusersitepackages__
  | inr e =>
      site_getsitepackages (snd r) = site_getsitepackages w /\
      site_getusersitepackages (snd r) = site_getusersitepackages w /\
      (e = AssertionError \/ e = SystemExit (CodeInt 1))
  end.
Proof.
  intros r. unfold r.
  destruct (read_text fs path) as [text|e] eqn:Hread.
  - destruct (forallb (os_path_exists fs)
                (map (os_path_join R) (split_newline text))) eqn:Hall.
    + rewrite (monkey_patch_ok _ _ _ _ w Hread Hall). cbn.
      repeat split. eexists. reflexivity.
    + rewrite (monkey_patch_missing _ _ _ _ w Hread Hall). cbn.
      repeat split. now left.
  - rewrite (monkey_patch_unreadable _ _ _ _ w Hread). cbn.
    repeat split. now right.
Qed.

(** ** The script as a whole *)

(** With the manifest in order, the script ends the way the checker
    did: [sys.exit(0)] when the checker returned, [sys.exit] with the
    very object the checker's [SystemExit] carried ([None] and strings
    included), and any other exception of the checker unchanged, not
    turned into an exit status. *)
Theorem script_ends_as_the_checker (inv : invocation) (mypy : checker) (w0 : world)
    (text : string) :
  read_text (fs inv) (external_deps inv) = inl text ->
  forallb (os_path_exists (fs inv)) (site_packages_of inv text) = true ->
  fst (script inv mypy w0)
  = match ends (the_run inv text mypy w0) with
    | Returns => inr (SystemExit (CodeInt 0))
    | RaisesSystemExit code => inr (SystemExit code)
    | RaisesOther what => inr (OtherError what)
    end.
Proof.
  intros Hread Hall. rewrite (script_run inv mypy w0 text Hread Hall).
  destruct (ends (the_run inv text mypy w0)); reflexivity.
Qed.

Lemma script_ends_as_the_checker_witness :
  fst (script example_invocation failing_checker example_world)
  = inr (SystemExit (CodeInt 1)).
Proof.
  apply (script_ends_as_the_checker example_invocation failing_checker example_world
           ("libs/foo" +:+ nl +:+ "libs/bar")).
  - reflexivity.
  - reflexivity.
Defined.

(** When the checker raises anything but [SystemExit], the [except]
    clause of line 88 does not apply: what the checker had written to
    its sink is not printed anywhere, the restore runs, and the
    exception leaves the script. *)
Theorem unexpected_exception_drops_the_output (inv : invocation) (mypy : checker)
    (w0 : world) (text what : string) :
  read_text (fs inv) (external_deps inv) = inl text ->
  forallb (os_path_exists (fs inv)) (site_packages_of inv text) = true ->
  ends (the_run inv text mypy w0) = RaisesOther what ->
  exists w',
    script inv mypy w0 = (inr (OtherError what), w') /\
    trace w' = trace w0 ++ [CallMonkeyPatch; CallMain (unknown inv); CallRestore] /\
    written sys_stdout (trace w') = written sys_stdout (trace w0) /\
    written sys_stderr (trace w') = written sys_stderr (trace w0) /\
    heap w' = heap w0 ++ [EmptyString; captured (the_run inv text mypy w0)].
Proof.
  intros Hread Hall Hends.
  rewrite (script_run inv mypy w0 text Hread Hall), Hends.
  eexists. split; [reflexivity |]. cbn [trace heap].
  rewrite !written_app. simpl. rewrite !append_empty_r. repeat split.
Qed.

(** A checker that writes a diagnostic and then fails with an internal
    error. *)
Lemma unexpected_exception_drops_the_output_witness :
  exists w',
    script example_invocation
      (fun _ _ _ => mkRun [(to_stdout, "a.py:1: error")] (RaisesOther "KeyError"))
      example_world
    = (inr (OtherError "KeyError"), w') /\
    trace w' = [] ++ [CallMonkeyPatch; CallMain ["a.py"]; CallRestore] /\
    written sys_stdout (trace w') = EmptyString /\
    written sys_stderr (trace w') = EmptyString /\
    heap w' = [] ++ [EmptyString; "a.py:1: error"].
Proof.
  apply (unexpected_exception_drops_the_output example_invocation
           (fun _ _ _ => mkRun [(to_stdout, "a.py:1: error")] (RaisesOther "KeyError"))
           example_world ("libs/foo" +:+ nl +:+ "libs/bar") "KeyError").
  - reflexivity.
  - reflexivity.
  - reflexivity.
Defined.


(** The one call of the checker is made while the override is in
    place, with the arguments that [parse_known_args] left over: the
    script's result depends on the checker only through what it does
    when [site.getsitepackages()] gives the manifest's paths followed
    by the host's and [site.getusersitepackages()] gives [''] *)
Theorem checker_runs_under_the_override (inv : invocation) (mypy : checker)
    (w0 : world) (text : string) (host_paths : list string) :
  site_getsitepackages w0 = host_getsitepackages host_paths ->
  read_text (fs inv) (external_deps inv) = inl text ->
  forallb (os_path_exists (fs inv)) (site_packages_of inv text) = true ->
  script inv mypy w0
  = script inv
      (fun _ _ _ =>
         mypy (Some (site_packages_of inv text ++ host_paths)) EmptyString (unknown inv))
      w0.
Proof.
  intros Hhost Hread Hall.
  rewrite !(script_run inv _ w0 text Hread Hall).
  unfold the_run, overridden_result. rewrite Hhost. reflexivity.
Qed.

(** A checker that stops with status 3 exactly when
    [/sandbox/libs/foo] is its first discovery path and the user path
    is empty, and returns otherwise: in the script it stops. *)
Lemma checker_runs_under_the_override_witness :
  script example_invocation
    (fun primary user _ =>
       match primary, user with
       | Some ("/sandbox/libs/foo" :: _), EmptyString =>
           mkRun [] (RaisesSystemExit (CodeInt 3))
       | _, _ => mkRun [] Returns
       end)
    example_world
  = script example_invocation
      (fun _ _ _ => mkRun [] (RaisesSystemExit (CodeInt 3)))
      example_world.
Proof.
  apply (checker_runs_under_the_override example_invocation
           (fun primary user _ =>
              match primary, user with
              | Some ("/sandbox/libs/foo" :: _), EmptyString =>
                  mkRun [] (RaisesSystemExit (CodeInt 3))
              | _, _ => mkRun [] Returns
              end)
           example_world
           ("libs/foo" +:+ nl +:+ "libs/bar")
           ["/usr/lib/python3/site-packages"]).
  - reflexivity.
  - reflexivity.
  - reflexivity.
Defined.

(** ** One buffer for both streams of the checker *)





(** ** The empty manifest *)

(** An empty manifest file is not an empty list of dependencies: its
    one entry is the empty string, so the install asserts that the
    root itself exists and, if it does, puts the root in front of the
    host's discovery paths. *)
Theorem empty_manifest_exposes_the_root (fs : filesystem) (path R : string)
    (w : world) :
  read_text fs path = inl EmptyString ->
  (os_path_exists fs (os_path_join R EmptyString) = false ->
     monkey_patch_sitepackages fs path R w = (inr AssertionError, w)) /\
  (os_path_exists fs (os_path_join R EmptyString) = true ->
     exists w',
       monkey_patch_sitepackages fs path R w = (inl tt, w') /\
       site_getsitepackages w'
       = __bazel_override_getsitepackages__ [os_path_join R EmptyString]).
Proof.
  intros Hread. split; intros Hroot.
  - apply (monkey_patch_missing fs path R EmptyString w Hread).
    simpl. now rewrite Hroot.
  - eexists. split.
    + apply (monkey_patch_ok fs path R EmptyString w Hread).
      simpl. now rewrite Hroot.
    + reflexivity.
Qed.

Lemma empty_manifest_exposes_the_root_witness :
  exists w',
    monkey_patch_sitepackages example_empty_fs "deps.txt" "/sandbox" example_loaded
    = (inl tt, w') /\
    site_getsitepackages w' = __bazel_override_getsitepackages__ ["/sandbox/"].
Proof.
  apply (empty_manifest_exposes_the_root example_empty_fs "deps.txt" "/sandbox"
           example_loaded).
  - reflexivity.
  - reflexivity.
Defined.

